(** * tendermint-exporter: a shallow embedding of [main.go]

    The exporter answers every scrape of [/metrics] by querying the local
    node, optionally a reference node, the GitHub release feed and the node
    binary, and renders the answers as Prometheus gauges.

    The development follows the layout of the source file:
    - the functions of package [strings] the program calls;
    - the data types ([VersionInfo], [ReleaseInfo], [Data]) and the
      configuration variables;
    - the fetchers [GetNodeStatus], [GetGithubRelease], [GetBinaryVersion]
      with its helper [getJsonString];
    - the aggregator [GetAllData] and the HTTP [Handler];
    - the two earlier revisions of the program kept in the repository
      (modules [Part001] and [Initial]).

    Strings are Go strings, that is byte sequences: [string] of the standard
    library.  A Go [error] is an interface value that may be nil: [option
    GoError].  A pointer that may be nil is an [option].  The libraries the
    program calls (RPC client, HTTP client, process runner, JSON decoder)
    are records of answers.  The four goroutines of [GetAllData] are
    functions on the frame of its variables, run one after the other;
    [GetAllData_any_schedule] shows that their order does not matter.
    Logging is left out. *)

From Stdlib Require Import String Ascii List Bool ZArith Lia Permutation.
Import ListNotations.

Local Open Scope string_scope.
Local Open Scope Z_scope.

(** ** Package [strings] *)

(** [strings.HasPrefix(s, prefix)]:
    [len(s) >= len(prefix) && s[:len(prefix)] == prefix]. *)
Definition HasPrefix (s prefix : string) : bool :=
  (String.length prefix <=? String.length s)%nat
  && String.eqb (substring 0 (String.length prefix) s) prefix.

(** [strings.HasSuffix(s, suffix)]:
    [len(s) >= len(suffix) && s[len(s)-len(suffix):] == suffix]. *)
Definition HasSuffix (s suffix : string) : bool :=
  (String.length suffix <=? String.length s)%nat
  && String.eqb
       (substring (String.length s - String.length suffix)
                  (String.length suffix) s)
       suffix.

(** [strings.Index(s, substr)]: the index of the first instance of [substr]
    in [s], or [-1] if [substr] is not present in [s]. *)
Fixpoint Index (s substr : string) : Z :=
  if HasPrefix s substr then 0
  else
    match s with
    | EmptyString => -1
    | String _ rest =>
        let i := Index rest substr in
        if i <? 0 then -1 else i + 1
    end.

(** [strings.Contains(s, substr)]: [Index(s, substr) >= 0]. *)
Definition Contains (s substr : string) : bool :=
  0 <=? Index s substr.

(** [strings.Split(s, sep)] for a separator of one byte, which is how the
    program calls it ([Split(input, "\n")] and [Split(BinaryArgs, " ")]):
    the pieces of [s] between the occurrences of [sep]; a string without
    [sep] is its own single piece, and the empty string gives one empty
    piece. *)
Fixpoint Split (s : string) (sep : ascii) : list string :=
  match s with
  | EmptyString => [EmptyString]
  | String c rest =>
      if Ascii.eqb c sep then EmptyString :: Split rest sep
      else
        match Split rest sep with
        | [] => [String c EmptyString]
        | piece :: pieces => String c piece :: pieces
        end
  end.

Definition newline : ascii := "010"%char.
Definition space : ascii := " "%char.

(** ** [getJsonString]

    "a helper to get the first string in a multiline string starting with {
    and ending with }": the loop over the lines returns at the first line
    that passes the test, and the whole input is returned when the loop
    ends. *)
Definition isJsonLine (line : string) : bool :=
  HasPrefix line "{" && HasSuffix line "}".

Fixpoint firstJsonLine (split : list string) : option string :=
  match split with
  | [] => None
  | line :: rest =>
      if isJsonLine line then Some line else firstJsonLine rest
  end.

Definition getJsonString (input : string) : string :=
  let split := Split input newline in
  match firstJsonLine split with
  | Some line => line
  | None => input
  end.

(** ** Data types *)

(** A Go [error] value; [Error] is its message.  The nil error is [None]. *)
Record GoError := mkError { Error : string }.

Definition error := option GoError.

(** [fmt.Errorf] with a format that has no verbs. *)
Definition Errorf (format : string) : GoError := mkError format.

Record VersionInfo := mkVersionInfo {
  vi_Name : string;      (* Name    string `json:"name"` *)
  Version : string       (* Version string `json:"version"` *)
}.

Record ReleaseInfo := mkReleaseInfo {
  ri_Name : string;      (* Name    string `json:"name"` *)
  TagName : string       (* TagName string `json:"tag_name"` *)
}.

(** Modelled from the spec: [coretypes.ResultStatus] is declared by the
    Tendermint library, outside the repository.  The record keeps the fields
    the handler reads (node identity and moniker, catching-up flag, latest
    block height and time, voting power), under the paths the handler reads
    them by.  Times are instants in nanoseconds. *)
Record DefaultNodeInfo := mkNodeInfo {
  DefaultNodeID : string;
  Moniker : string
}.

Record SyncInfo_t := mkSyncInfo {
  LatestBlockHeight : Z;
  LatestBlockTime : Z;
  CatchingUp : bool
}.

Record ValidatorInfo_t := mkValidatorInfo {
  VotingPower : Z
}.

Record ResultStatus := mkResultStatus {
  NodeInfo : DefaultNodeInfo;
  SyncInfo : SyncInfo_t;
  ValidatorInfo : ValidatorInfo_t
}.

(** [type Data struct]; the two statuses are pointers. *)
Record Data := mkData {
  releaseInfo : ReleaseInfo;
  versionInfo : VersionInfo;
  localStatus : option ResultStatus;
  remoteStatus : option ResultStatus;
  err : error
}.

(** Zero values. *)
Definition zeroVersionInfo : VersionInfo := mkVersionInfo "" "".
Definition zeroReleaseInfo : ReleaseInfo := mkReleaseInfo "" "".

(** The composite literal [Data{err: e}]: every other field is zero. *)
Definition Data_err (e : GoError) : Data :=
  mkData zeroReleaseInfo zeroVersionInfo None None (Some e).

(** The package-level configuration variables the scrape reads.  They are
    set once from the flags before the server starts. *)
Record Config := mkConfig {
  LocalTendermintRpc : string;
  RemoteTendermintRpc : string;
  BinaryPath : string;
  BinaryArgs : string;
  GithubOrg : string;
  GithubRepo : string;
  GithubToken : string
}.

(** ** The outside world

    The RPC client, the HTTP client, the process runner and the JSON decoder
    are libraries; the program only sees what they return.  Each is a record
    of answers. *)

(** The client [tmrpc.New] returns. *)
Record Client := mkClient { remote : string; wsEndpoint : string }.

(** The Tendermint RPC transport as one call of [GetNodeStatus] finds it:
    [rpc_New remote wsEndpoint] is the error of [tmrpc.New] (nil when the
    client is built), [rpc_Status c] is what [c.Status(ctx)] returns. *)
Record Rpc := mkRpc {
  rpc_New : string -> string -> error;
  rpc_Status : Client -> option ResultStatus * error
}.

Record Request := mkRequest {
  Method : string;
  URL : string;
  Header : list (string * string)
}.

(** [http_NewRequest method url] is the error of [http.NewRequest] (nil when
    the request is built); [http_Do req] is the error of [client.Do] or the
    body of the response. *)
Record Http := mkHttp {
  http_NewRequest : string -> string -> error;
  http_Do : Request -> string * error
}.

(** Package [encoding/json]: [json_Valid] is [json.Valid];
    [json_Unmarshal data v] is [json.Unmarshal(data, &v)] on a [VersionInfo]
    and [json_Decode body v] is [json.NewDecoder(body).Decode(&v)] on a
    [ReleaseInfo], each returning the target as the call leaves it and the
    error. *)
Record Json := mkJson {
  json_Valid : string -> bool;
  json_Unmarshal : string -> VersionInfo -> VersionInfo * error;
  json_Decode : string -> ReleaseInfo -> ReleaseInfo * error
}.

(** What the documentation of [json.Unmarshal] promises for malformed input:
    the input is checked before anything is stored, so the call returns a
    syntax error and leaves the target as it was. *)
Definition json_rejects_invalid (j : Json) : Prop :=
  forall data v, json_Valid j data = false ->
                 exists e, json_Unmarshal j data v = (v, Some e).

(** The world of one scrape.  The two status calls run at their own moments,
    so each has its own view of the RPC transport; [exec_CombinedOutput name
    args] is [exec.Command(name, args...).CombinedOutput()] and [exec_Output
    name args] is [exec.Command(name, args...).Output()]. *)
Record Env := mkEnv {
  localNet : Rpc;
  remoteNet : Rpc;
  github : Http;
  exec_CombinedOutput : string -> list string -> string * error;
  exec_Output : string -> list string -> string * error;
  json : Json
}.

(** ** Fetchers *)

Definition GetNodeStatus (net : Rpc) (nodeUrl : string)
  : option ResultStatus * error :=
  match rpc_New net nodeUrl "/websocket" with
  | Some err => (None, Some err)
  | None =>
      let client := mkClient nodeUrl "/websocket" in
      match rpc_Status net client with
      | (_, Some err) => (None, Some err)
      | (None, None) => (None, Some (Errorf "empty status from node"))
      | (Some status, None) => (Some status, None)
      end
  end.

(** [GetGithubRelease(url, target)] with [target] a [*ReleaseInfo]: the
    result is the target as the call leaves it, and the error. *)
Definition GetGithubRelease (cfg : Config) (web : Http) (j : Json)
    (url : string) (target : ReleaseInfo) : ReleaseInfo * error :=
  match http_NewRequest web "GET" url with
  | Some err => (target, Some err)
  | None =>
      let header :=
        if String.eqb (GithubToken cfg) "" then []
        else [("Authorization", "Bearer " ++ GithubToken cfg)] in
      let req := mkRequest "GET" url header in
      match http_Do web req with
      | (_, Some err) => (target, Some err)
      | (body, None) => json_Decode j body target
      end
  end.

Definition GetBinaryVersion (cfg : Config) (env : Env) : VersionInfo * error :=
  let args := Split (BinaryArgs cfg) space in
  match exec_CombinedOutput env (BinaryPath cfg) args with
  | (out, Some err) => (zeroVersionInfo, Some err)
  | (out, None) =>
      let jsonOutput := getJsonString out in
      match json_Unmarshal (json env) jsonOutput zeroVersionInfo with
      | (versionInfo, Some err) => (versionInfo, Some err)
      | (versionInfo, None) => (versionInfo, None)
      end
  end.

(** ** The aggregator [GetAllData]

    [GetAllData] declares eight result variables, starts four goroutines that
    each assign their own variables, waits for all of them and then reads the
    variables.  [Frame] is the set of those variables.  The field [invoked]
    is not a variable of the program: it records which fetchers were called,
    so that "the fetcher is not invoked" can be stated. *)
Inductive Call :=
| CallGetNodeStatus (nodeUrl : string)
| CallGetGithubRelease (url : string)
| CallGetBinaryVersion.

Record Frame := mkFrame {
  v_localStatus : option ResultStatus;
  v_remoteStatus : option ResultStatus;
  v_releaseInfo : ReleaseInfo;
  v_versionInfo : VersionInfo;
  v_localStatusError : error;
  v_remoteStatusError : error;
  v_releaseInfoError : error;
  v_versionInfoError : error;
  invoked : list Call
}.

(** The [var ( ... )] block: every variable has its zero value. *)
Definition frame0 : Frame :=
  mkFrame None None zeroReleaseInfo zeroVersionInfo None None None None [].

Definition latestReleaseUrl (cfg : Config) : string :=
  "https://api.github.com/repos/" ++ GithubOrg cfg ++ "/" ++ GithubRepo cfg
  ++ "/releases/latest".

Section Goroutines.

Variable cfg : Config.
Variable env : Env.

(** First goroutine: the local status, always. *)
Definition go_localStatus (f : Frame) : Frame :=
  let '(status, e) := GetNodeStatus (localNet env) (LocalTendermintRpc cfg) in
  mkFrame status (v_remoteStatus f) (v_releaseInfo f) (v_versionInfo f)
          e (v_remoteStatusError f) (v_releaseInfoError f)
          (v_versionInfoError f)
          (invoked f ++ [CallGetNodeStatus (LocalTendermintRpc cfg)]).

(** Second goroutine: the remote status, unless no address is set. *)
Definition go_remoteStatus (f : Frame) : Frame :=
  if String.eqb (RemoteTendermintRpc cfg) "" then f
  else
    let '(status, e) :=
      GetNodeStatus (remoteNet env) (RemoteTendermintRpc cfg) in
    mkFrame (v_localStatus f) status (v_releaseInfo f) (v_versionInfo f)
            (v_localStatusError f) e (v_releaseInfoError f)
            (v_versionInfoError f)
            (invoked f ++ [CallGetNodeStatus (RemoteTendermintRpc cfg)]).

(** Third goroutine: the latest release, unless the organization or the
    repository is not set. *)
Definition go_releaseInfo (f : Frame) : Frame :=
  if String.eqb (GithubOrg cfg) "" || String.eqb (GithubRepo cfg) "" then f
  else
    let '(info, e) :=
      GetGithubRelease cfg (github env) (json env)
                       (latestReleaseUrl cfg) (v_releaseInfo f) in
    mkFrame (v_localStatus f) (v_remoteStatus f) info (v_versionInfo f)
            (v_localStatusError f) (v_remoteStatusError f) e
            (v_versionInfoError f)
            (invoked f ++ [CallGetGithubRelease (latestReleaseUrl cfg)]).

(** Fourth goroutine: the version of the binary, unless no path is set. *)
Definition go_versionInfo (f : Frame) : Frame :=
  if String.eqb (BinaryPath cfg) "" then f
  else
    let '(info, e) := GetBinaryVersion cfg env in
    mkFrame (v_localStatus f) (v_remoteStatus f) (v_releaseInfo f) info
            (v_localStatusError f) (v_remoteStatusError f)
            (v_releaseInfoError f) e
            (invoked f ++ [CallGetBinaryVersion]).

(** The frame at [wg.Wait()], for the goroutines run in the order [order]. *)
Definition run (order : list (Frame -> Frame)) : Frame :=
  fold_left (fun f go => go f) order frame0.

Definition goroutines : list (Frame -> Frame) :=
  [go_localStatus; go_remoteStatus; go_releaseInfo; go_versionInfo].

Definition joined : Frame := run goroutines.

End Goroutines.

(** The statements after [wg.Wait()]: the four error tests in order, then the
    assembled value. *)
Definition resolve (f : Frame) : Data :=
  match v_localStatusError f with
  | Some e => Data_err e
  | None =>
      match v_remoteStatusError f with
      | Some e => Data_err e
      | None =>
          match v_releaseInfoError f with
          | Some e => Data_err e
          | None =>
              match v_versionInfoError f with
              | Some e => Data_err e
              | None =>
                  mkData (v_releaseInfo f) (v_versionInfo f)
                         (v_localStatus f) (v_remoteStatus f) None
              end
          end
      end
  end.

Definition GetAllData (cfg : Config) (env : Env) : Data :=
  resolve (joined cfg env).

(** The fetchers one scrape calls. *)
Definition GetAllData_invoked (cfg : Config) (env : Env) : list Call :=
  invoked (joined cfg env).

(** ** The handler *)

(** The value of a gauge.  [Set] takes a [float64]; the program passes the
    conversion of an integer, or a duration in seconds.  Both are kept as the
    integer they come from. *)
Inductive GaugeValue :=
| FloatOfInt (n : Z)              (* float64(n) *)
| Seconds (nanoseconds : Z).      (* Duration.Seconds() *)

Definition BoolToFloat64 (value : bool) : GaugeValue :=
  if value then FloatOfInt 1 else FloatOfInt 0.

(** One [gauge.With(labels).Set(value)]. *)
Record Sample := mkSample {
  metric : string;
  labels : list (string * string);
  value : GaugeValue
}.

Inductive Body :=
| PlainText (text : string)
| Exposition (samples : list Sample).   (* written by promhttp *)

Record Response := mkResponse {
  StatusCode : Z;
  body : Body
}.

(** The test of the mismatch gauge. *)
Definition versionMatch (tagName version : string) : bool :=
  Contains tagName version || Contains version tagName.

Definition versionMismatch (tagName version : string) : bool :=
  negb (versionMatch tagName version).

Section Handler.

Variable cfg : Config.
Variable now : Z.      (* the instant [time.Since] reads *)

Definition idMoniker (status : ResultStatus) : list (string * string) :=
  [("id", DefaultNodeID (NodeInfo status));
   ("moniker", Moniker (NodeInfo status))].

(** The gauges set from an error-free [data] whose local status is
    [local], in the order of the statements. *)
Definition gauges (data : Data) (local : ResultStatus) : list Sample :=
  [ mkSample "tendermint_node_catching_up" (idMoniker local)
      (BoolToFloat64 (CatchingUp (SyncInfo local)));
    mkSample "tendermint_node_voting_power" (idMoniker local)
      (FloatOfInt (VotingPower (ValidatorInfo local)));
    mkSample "tendermint_node_time_since_latest_block" (idMoniker local)
      (Seconds (now - LatestBlockTime (SyncInfo local))) ]
  ++ (if negb (String.eqb (Version (versionInfo data)) "") then
        [ mkSample "tendermint_node_app_version"
            (idMoniker local ++ [("version", Version (versionInfo data))])
            (FloatOfInt 1) ]
      else [])
  ++ (if negb (String.eqb (TagName (releaseInfo data)) "") then
        [ mkSample "tendermint_github_latest_version"
            [("organization", GithubOrg cfg);
             ("repository", GithubRepo cfg);
             ("version", TagName (releaseInfo data))]
            (FloatOfInt 1) ]
      else [])
  ++ (if negb (String.eqb (Version (versionInfo data)) "")
         && negb (String.eqb (TagName (releaseInfo data)) "") then
        [ mkSample "tendermint_latest_version_mismatch"
            (idMoniker local
             ++ [("local_version", Version (versionInfo data));
                 ("remote_version", TagName (releaseInfo data))])
            (BoolToFloat64
               (versionMismatch (TagName (releaseInfo data))
                                (Version (versionInfo data)))) ]
      else [])
  ++ [ mkSample "tendermint_local_node_latest_block" (idMoniker local)
         (FloatOfInt (LatestBlockHeight (SyncInfo local))) ]
  ++ (match remoteStatus data with
      | Some remote =>
          [ mkSample "tendermint_remote_node_latest_block"
              (idMoniker remote)
              (FloatOfInt (LatestBlockHeight (SyncInfo remote))) ]
      | None => []
      end).

(** The handler from [data := GetAllData()] on.  [None] is the run in
    which the handler dereferences a nil [data.localStatus] and panics. *)
Definition respond (data : Data) : option Response :=
  match err data with
  | Some e =>
      Some (mkResponse 500 (PlainText ("Error fetching data: " ++ Error e)))
  | None =>
      match localStatus data with
      | None => None
      | Some local => Some (mkResponse 200 (Exposition (gauges data local)))
      end
  end.

End Handler.

Definition Handler (cfg : Config) (env : Env) (now : Z) : option Response :=
  respond cfg now (GetAllData cfg env).

(** ** The earlier revision kept in the repository

    The repository also holds the revision of [main.go] that came before the
    optional fetchers: every fetcher always runs, the status is passed on as
    the client returns it, and the binary is asked with fixed arguments. *)
Module Part001.

(** [myClient.Get(url)]: a GET request without headers. *)
Definition http_Get (web : Http) (url : string) : string * error :=
  match http_NewRequest web "GET" url with
  | Some e => ("", Some e)
  | None => http_Do web (mkRequest "GET" url [])
  end.

Definition GetJson (web : Http) (j : Json) (url : string)
    (target : ReleaseInfo) : ReleaseInfo * error :=
  match http_Get web url with
  | (_, Some e) => (target, Some e)
  | (r, None) => json_Decode j r target
  end.

Definition GetNodeStatus (net : Rpc) (nodeUrl : string)
  : option ResultStatus * error :=
  match rpc_New net nodeUrl "/websocket" with
  | Some e => (None, Some e)
  | None => rpc_Status net (mkClient nodeUrl "/websocket")
  end.

Definition GetNodeVersion (cfg : Config) (env : Env) : VersionInfo * error :=
  match exec_CombinedOutput env (BinaryPath cfg)
          ["version"; "--long"; "--output"; "json"] with
  | (out, Some e) => (zeroVersionInfo, Some e)
  | (out, None) =>
      match json_Unmarshal (json env) out zeroVersionInfo with
      | (versionInfo, Some e) => (versionInfo, Some e)
      | (versionInfo, None) => (versionInfo, None)
      end
  end.

Section Goroutines.

Variable cfg : Config.
Variable env : Env.

Definition go_localStatus (f : Frame) : Frame :=
  let '(status, e) :=
    GetNodeStatus (localNet env) (LocalTendermintRpc cfg) in
  mkFrame status (v_remoteStatus f) (v_releaseInfo f) (v_versionInfo f)
          e (v_remoteStatusError f) (v_releaseInfoError f)
          (v_versionInfoError f)
          (invoked f ++ [CallGetNodeStatus (LocalTendermintRpc cfg)]).

Definition go_remoteStatus (f : Frame) : Frame :=
  let '(status, e) :=
    GetNodeStatus (remoteNet env) (RemoteTendermintRpc cfg) in
  mkFrame (v_localStatus f) status (v_releaseInfo f) (v_versionInfo f)
          (v_localStatusError f) e (v_releaseInfoError f)
          (v_versionInfoError f)
          (invoked f ++ [CallGetNodeStatus (RemoteTendermintRpc cfg)]).

Definition go_releaseInfo (f : Frame) : Frame :=
  let '(info, e) :=
    GetJson (github env) (json env) (latestReleaseUrl cfg)
            (v_releaseInfo f) in
  mkFrame (v_localStatus f) (v_remoteStatus f) info (v_versionInfo f)
          (v_localStatusError f) (v_remoteStatusError f) e
          (v_versionInfoError f)
          (invoked f ++ [CallGetGithubRelease (latestReleaseUrl cfg)]).

Definition go_versionInfo (f : Frame) : Frame :=
  let '(info, e) := GetNodeVersion cfg env in
  mkFrame (v_localStatus f) (v_remoteStatus f) (v_releaseInfo f) info
          (v_localStatusError f) (v_remoteStatusError f)
          (v_releaseInfoError f) e
          (invoked f ++ [CallGetBinaryVersion]).

Definition joined : Frame :=
  go_versionInfo (go_releaseInfo (go_remoteStatus (go_localStatus frame0))).

End Goroutines.

(** The statements after [wg.Wait()].  The second test reads
    [localStatusError] again and returns [Data{err: remoteStatusError}];
    [mkData ... (v_remoteStatusError f)] is that literal, whose [err] may
    be nil. *)
Definition resolve (f : Frame) : Data :=
  match v_localStatusError f with
  | Some e => Data_err e
  | None =>
      match v_localStatusError f with
      | Some _ =>
          mkData zeroReleaseInfo zeroVersionInfo None None
                 (v_remoteStatusError f)
      | None =>
          match v_releaseInfoError f with
          | Some e => Data_err e
          | None =>
              match v_versionInfoError f with
              | Some e => Data_err e
              | None =>
                  mkData (v_releaseInfo f) (v_versionInfo f)
                         (v_localStatus f) (v_remoteStatus f) None
              end
          end
      end
  end.

Definition GetAllData (cfg : Config) (env : Env) : Data :=
  resolve (joined cfg env).

(** The handler of this revision sets every gauge without a test, so it
    dereferences both statuses. *)
Definition gauges (cfg : Config) (data : Data)
    (local remote : ResultStatus) : list Sample :=
  [ mkSample "tendermint_node_catching_up" (idMoniker local)
      (BoolToFloat64 (CatchingUp (SyncInfo local)));
    mkSample "tendermint_node_voting_power" (idMoniker local)
      (FloatOfInt (VotingPower (ValidatorInfo local)));
    mkSample "tendermint_node_app_version"
      (idMoniker local ++ [("version", Version (versionInfo data))])
      (FloatOfInt 1);
    mkSample "tendermint_github_latest_version"
      [("organization", GithubOrg cfg);
       ("repository", GithubRepo cfg);
       ("version", TagName (releaseInfo data))]
      (FloatOfInt 1);
    mkSample "tendermint_latest_version_mismatch"
      (idMoniker local
       ++ [("local_version", Version (versionInfo data));
           ("remote_version", TagName (releaseInfo data))])
      (BoolToFloat64
         (versionMismatch (TagName (releaseInfo data))
                          (Version (versionInfo data))));
    mkSample "tendermint_local_node_latest_block" (idMoniker local)
      (FloatOfInt (LatestBlockHeight (SyncInfo local)));
    mkSample "tendermint_remote_node_latest_block" (idMoniker remote)
      (FloatOfInt (LatestBlockHeight (SyncInfo remote))) ].

Definition respond (cfg : Config) (data : Data) : option Response :=
  match err data with
  | Some e =>
      Some (mkResponse 500 (PlainText ("Error fetching data: " ++ Error e)))
  | None =>
      match localStatus data, remoteStatus data with
      | Some local, Some remote =>
          Some (mkResponse 200 (Exposition (gauges cfg data local remote)))
      | _, _ => None
      end
  end.

Definition Handler (cfg : Config) (env : Env) : option Response :=
  respond cfg (GetAllData cfg env).

End Part001.

(** ** The first revision kept in the repository

    The second half of [main.go] is the program before [GetAllData]: the
    handler calls the four fetchers one after the other and returns at the
    first error without writing anything, so the server answers 200 with an
    empty body.  [GetNodeStatus] and [GetJson] read as in [Part001]. *)
Module Initial.

Definition GetNodeVersion (cfg : Config) (env : Env) : VersionInfo * error :=
  match exec_Output env (BinaryPath cfg)
          ["version"; "--long"; "--output"; "json"] with
  | (out, Some e) => (zeroVersionInfo, Some e)
  | (out, None) =>
      match json_Unmarshal (json env) out zeroVersionInfo with
      | (versionInfo, Some e) => (versionInfo, Some e)
      | (versionInfo, None) => (versionInfo, None)
      end
  end.

(** What the server sends when the handler returns without a write. *)
Definition nothingWritten : Response := mkResponse 200 (PlainText "").

Definition Handler (cfg : Config) (env : Env) : option Response :=
  match Part001.GetNodeStatus (localNet env) (LocalTendermintRpc cfg) with
  | (_, Some _) => Some nothingWritten
  | (localStatus, None) =>
      match Part001.GetNodeStatus (remoteNet env) (RemoteTendermintRpc cfg) with
      | (_, Some _) => Some nothingWritten
      | (remoteStatus, None) =>
          match Part001.GetJson (github env) (json env) (latestReleaseUrl cfg)
                                zeroReleaseInfo with
          | (_, Some _) => Some nothingWritten
          | (releaseInfo, None) =>
              match GetNodeVersion cfg env with
              | (_, Some _) => Some nothingWritten
              | (versionInfo, None) =>
                  match localStatus, remoteStatus with
                  | Some local, Some remote =>
                      Some (mkResponse 200
                              (Exposition
                                 (Part001.gauges cfg
                                    (mkData releaseInfo versionInfo
                                            localStatus remoteStatus None)
                                    local remote)))
                  | _, _ => None
                  end
              end
          end
      end
  end.

End Initial.

(** ** The extraction step as the specification words it

    The specification describes the selection on the {e trimmed} content of
    each line.  [Spec.selectJsonLine] follows those words, to be compared
    with [getJsonString]. *)
Module Spec.

Definition isSpace (c : ascii) : bool :=
  match nat_of_ascii c with
  | 9%nat | 10%nat | 11%nat | 12%nat | 13%nat | 32%nat => true
  | _ => false
  end.

Fixpoint TrimLeft (s : string) : string :=
  match s with
  | EmptyString => EmptyString
  | String c rest => if isSpace c then TrimLeft rest else s
  end.

Fixpoint TrimRight (s : string) : string :=
  match s with
  | EmptyString => EmptyString
  | String c rest =>
      match TrimRight rest with
      | EmptyString => if isSpace c then EmptyString else String c EmptyString
      | kept => String c kept
      end
  end.

Definition TrimSpace (s : string) : string := TrimRight (TrimLeft s).

(** "the first line whose trimmed content begins with [{] and ends with
    [}]". *)
Fixpoint selectJsonLine' (lines : list string) : option string :=
  match lines with
  | [] => None
  | line :: rest =>
      if isJsonLine (TrimSpace line) then Some line else selectJsonLine' rest
  end.

Definition selectJsonLine (output : string) : option string :=
  selectJsonLine' (Split output newline).

End Spec.

(** ** Sample worlds *)

Definition quote : string := String "034"%char EmptyString.
Definition lf : string := String newline EmptyString.

(** The document [{"name":"x","version":"1.0.0"}]. *)
Definition versionJson : string :=
  "{" ++ quote ++ "name" ++ quote ++ ":" ++ quote ++ "x" ++ quote ++ ","
  ++ quote ++ "version" ++ quote ++ ":" ++ quote ++ "1.0.0" ++ quote ++ "}".

(** Three lines, the second being the document. *)
Definition wrappedOutput : string :=
  "starting daemon" ++ lf ++ versionJson ++ lf ++ "done".

(** The same with the document between blanks. *)
Definition paddedLine : string := "  " ++ versionJson ++ "  ".

Definition paddedOutput : string :=
  "starting daemon" ++ lf ++ paddedLine ++ lf ++ "done".

(** Two lines of log, no document. *)
Definition brokenOutput : string :=
  "starting daemon" ++ lf ++ "panic: no such file".

Definition syntaxError : GoError :=
  mkError "invalid character 's' looking for beginning of value".

(** A decoder that knows the one document above and rejects the rest. *)
Definition sampleJson : Json :=
  mkJson
    (fun data => String.eqb data versionJson)
    (fun data v =>
       if String.eqb data versionJson then (mkVersionInfo "x" "1.0.0", None)
       else (v, Some syntaxError))
    (fun body v =>
       if String.eqb body "release" then (mkReleaseInfo "v2.0.0" "v2.0.0", None)
       else (v, Some syntaxError)).

Definition sampleStatus : ResultStatus :=
  mkResultStatus (mkNodeInfo "abc" "node1")
                 (mkSyncInfo 500 1000000000 false)
                 (mkValidatorInfo 100).

Definition remoteSample : ResultStatus :=
  mkResultStatus (mkNodeInfo "ref" "reference")
                 (mkSyncInfo 502 1000000000 false)
                 (mkValidatorInfo 0).

Definition connectionRefused : GoError := mkError "connection refused".

Definition rpcUp (status : ResultStatus) : Rpc :=
  mkRpc (fun _ _ => None) (fun _ => (Some status, None)).

Definition rpcDown : Rpc :=
  mkRpc (fun _ _ => None) (fun _ => (None, Some connectionRefused)).

(** A transport whose status call completes with neither status nor error. *)
Definition rpcEmpty : Rpc :=
  mkRpc (fun _ _ => None) (fun _ => (None, None)).

Definition webUp : Http :=
  mkHttp (fun _ _ => None) (fun _ => ("release", None)).

Definition runBinary (out : string) : string -> list string -> string * error :=
  fun _ _ => (out, None).

Definition sampleEnv (localRpc remoteRpc : Rpc) (out : string) : Env :=
  mkEnv localRpc remoteRpc webUp (runBinary out) (runBinary out) sampleJson.

(** Every optional fetcher configured. *)
Definition fullConfig : Config :=
  mkConfig "http://localhost:26657" "https://rpc.cosmos.network:443"
           "gaiad" "version --long --output json" "cosmos" "gaia" "".

(** Only the local node configured: the defaults of the flags. *)
Definition bareConfig : Config :=
  mkConfig "http://localhost:26657" "" "" "version --long --output json"
           "" "" "".

(** ** Vocabulary of the statements *)

(** [x] occurs in [y]. *)
Definition Substring (x y : string) : Prop :=
  exists before after, y = before ++ x ++ after.

(** The pieces put back together with [sep] between them. *)
Fixpoint Join (pieces : list string) (sep : ascii) : string :=
  match pieces with
  | [] => ""
  | [p] => p
  | p :: rest => p ++ String sep (Join rest sep)
  end.

(** The first non-nil error of a list of errors. *)
Fixpoint firstError (errors : list error) : error :=
  match errors with
  | [] => None
  | Some e :: _ => Some e
  | None :: rest => firstError rest
  end.

(** What each fetcher returns in the world of the scrape. *)
Definition localStatusFetch (cfg : Config) (env : Env) :=
  GetNodeStatus (localNet env) (LocalTendermintRpc cfg).

Definition remoteStatusFetch (cfg : Config) (env : Env) :=
  GetNodeStatus (remoteNet env) (RemoteTendermintRpc cfg).

Definition releaseFetch (cfg : Config) (env : Env) :=
  GetGithubRelease cfg (github env) (json env) (latestReleaseUrl cfg)
                   zeroReleaseInfo.

Definition versionProbe (cfg : Config) (env : Env) :=
  GetBinaryVersion cfg env.

(** Which optional fetchers the configuration launches. *)
Definition remoteLaunched (cfg : Config) : bool :=
  negb (String.eqb (RemoteTendermintRpc cfg) "").

Definition releaseLaunched (cfg : Config) : bool :=
  negb (String.eqb (GithubOrg cfg) "" || String.eqb (GithubRepo cfg) "").

Definition versionLaunched (cfg : Config) : bool :=
  negb (String.eqb (BinaryPath cfg) "").

Definition ifLaunched {A : Type} (launched : bool) (result zero : A) : A :=
  if launched then result else zero.

(** The errors of the four sub-fetches in the order local status, remote
    status, release, version probe; a fetch that is not launched has none. *)
Definition subFetchErrors (cfg : Config) (env : Env) : list error :=
  [ snd (localStatusFetch cfg env);
    ifLaunched (remoteLaunched cfg) (snd (remoteStatusFetch cfg env)) None;
    ifLaunched (releaseLaunched cfg) (snd (releaseFetch cfg env)) None;
    ifLaunched (versionLaunched cfg) (snd (versionProbe cfg env)) None ].

Definition launchedCalls (cfg : Config) : list Call :=
  [CallGetNodeStatus (LocalTendermintRpc cfg)]
  ++ ifLaunched (remoteLaunched cfg)
       [CallGetNodeStatus (RemoteTendermintRpc cfg)] []
  ++ ifLaunched (releaseLaunched cfg)
       [CallGetGithubRelease (latestReleaseUrl cfg)] []
  ++ ifLaunched (versionLaunched cfg) [CallGetBinaryVersion] [].




(** ** Proof steps *)

Ltac frame_fields :=
  cbn [v_localStatus v_remoteStatus v_releaseInfo v_versionInfo
       v_localStatusError v_remoteStatusError v_releaseInfoError
       v_versionInfoError invoked fst snd].




(** Membership of a metric name in the gauges, by cases on the tests. *)
Ltac metric_names :=
  repeat match goal with
    | |- context [String.eqb ?s ""] => destruct (String.eqb_spec s "")
    | |- context [match ?o with Some _ => _ | None => _ end] => destruct o
    end;
  simpl;
  intuition (try discriminate; try congruence).

(** * Properties *)

(** ** Package [strings] *)

(** [HasPrefix] by cases on the two strings. *)
Lemma HasPrefix_nil s : HasPrefix s "" = true.
Proof. unfold HasPrefix. simpl. destruct s; reflexivity. Qed.

Lemma HasPrefix_cons c s d p :
  HasPrefix (String c s) (String d p) = Ascii.eqb c d && HasPrefix s p.
Proof.
  unfold HasPrefix. simpl.
  destruct (Ascii.eqb c d); simpl; [reflexivity | apply andb_false_r].
Qed.

Lemma HasPrefix_empty_l p : HasPrefix "" p = true -> p = "".
Proof. destruct p; [reflexivity | discriminate]. Qed.

(** [HasPrefix s p] holds exactly when [s] begins with [p]. *)
Lemma HasPrefix_spec s p :
  HasPrefix s p = true <-> exists rest, s = p ++ rest.
Proof.
  revert s. induction p as [|d p IH]; intros s.
  - rewrite HasPrefix_nil. split; [exists s; reflexivity | reflexivity].
  - destruct s as [|c s].
    + split; [discriminate | intros [r Hr]; discriminate].
    + rewrite HasPrefix_cons, andb_true_iff, Ascii.eqb_eq, IH.
      split.
      * intros [-> [r ->]]. exists r. reflexivity.
      * intros [r Hr]. simpl in Hr. injection Hr as -> ->. split; [reflexivity | exists r; reflexivity].
Qed.

(** [Index] is [-1] or an index. *)
Lemma Index_range s sub : Index s sub = -1 \/ 0 <= Index s sub.
Proof.
  induction s as [|c s IH]; simpl.
  - destruct (HasPrefix "" sub); lia.
  - destruct (HasPrefix (String c s) sub); [lia|].
    destruct (Z.ltb_spec (Index s sub) 0); lia.
Qed.

(** [Index] finds [sub] exactly when [sub] occurs in [s]. *)
Lemma Index_found s sub : 0 <= Index s sub <-> Substring sub s.
Proof.
  unfold Substring. induction s as [|c s IH].
  - simpl. destruct (HasPrefix "" sub) eqn:Hp.
    + apply HasPrefix_empty_l in Hp. subst. split; [|lia].
      intros _. exists "", "". reflexivity.
    + split; [lia|]. intros (a & b & H).
      destruct a; [|discriminate]. destruct sub; [|discriminate]. discriminate.
  - cbn [Index]. destruct (HasPrefix (String c s) sub) eqn:Hp.
    + split; [|lia]. intros _. apply HasPrefix_spec in Hp as [r Hr].
      exists "", r. exact Hr.
    + destruct (Z.ltb_spec (Index s sub) 0) as [Hneg|Hpos].
      * split; [lia|]. intros (a & b & H).
        destruct a as [|c' a].
        -- simpl in H. assert (HasPrefix (String c s) sub = true)
             by (apply HasPrefix_spec; exists b; exact H). congruence.
        -- simpl in H. injection H as _ H.
           assert (0 <= Index s sub) by (apply IH; exists a, b; exact H). lia.
      * split; [|lia]. intros _. apply IH in Hpos as (a & b & H).
        exists (String c a), b. simpl. rewrite H. reflexivity.
Qed.

(** [Contains s sub] holds exactly when [sub] occurs in [s]. *)
Lemma Contains_spec s sub : Contains s sub = true <-> Substring sub s.
Proof. unfold Contains. rewrite Z.leb_le. apply Index_found. Qed.

(** Facts on [substring] for the suffix test. *)
Lemma length_app (a b : string) :
  String.length (a ++ b) = (String.length a + String.length b)%nat.
Proof. induction a as [|c a IH]; simpl; [reflexivity | now rewrite IH]. Qed.

Lemma substring_all s : substring 0 (String.length s) s = s.
Proof. induction s as [|c s IH]; simpl; [reflexivity | now rewrite IH]. Qed.

Lemma substring_split s : forall n m,
  (n + m)%nat = String.length s -> s = substring 0 n s ++ substring n m s.
Proof.
  induction s as [|c s IH]; intros n m H.
  - destruct n, m; try discriminate. reflexivity.
  - destruct n as [|n].
    + simpl in H. subst m. change (substring 0 0 (String c s)) with "".
      simpl. now rewrite substring_all.
    + simpl in H. injection H as H. simpl. rewrite <- (IH n m H). reflexivity.
Qed.

Lemma substring_app_r r p :
  substring (String.length r) (String.length p) (r ++ p) = p.
Proof. induction r as [|c r IH]; simpl; [apply substring_all | exact IH]. Qed.

(** [HasSuffix s p] holds exactly when [s] ends with [p]. *)
Lemma HasSuffix_spec s p :
  HasSuffix s p = true <-> exists front, s = front ++ p.
Proof.
  unfold HasSuffix. rewrite andb_true_iff, Nat.leb_le, String.eqb_eq. split.
  - intros [Hle Heq].
    exists (substring 0 (String.length s - String.length p) s).
    pose proof (substring_split s (String.length s - String.length p)
                                (String.length p)) as H.
    rewrite Heq in H. apply H. lia.
  - intros [r ->]. rewrite length_app. split; [lia|].
    replace (String.length r + String.length p - String.length p)%nat
      with (String.length r) by lia.
    apply substring_app_r.
Qed.

(** The test of [getJsonString]: the line begins with [{] and ends with
    [}]. *)
Lemma isJsonLine_spec line :
  isJsonLine line = true <->
  (exists rest, line = "{" ++ rest) /\ (exists front, line = front ++ "}").
Proof.
  unfold isJsonLine. now rewrite andb_true_iff, HasPrefix_spec, HasSuffix_spec.
Qed.

(** The loop returns the first line that passes the test. *)
Lemma firstJsonLine_first pre line post :
  Forall (fun l => isJsonLine l = false) pre ->
  isJsonLine line = true ->
  firstJsonLine (pre ++ line :: post) = Some line.
Proof.
  intros Hpre Hline. induction Hpre as [|l pre Hl _ IH]; simpl.
  - now rewrite Hline.
  - now rewrite Hl.
Qed.

(** The loop ends without a line exactly when no line passes the test. *)
Lemma firstJsonLine_none lines :
  Forall (fun l => isJsonLine l = false) lines <-> firstJsonLine lines = None.
Proof.
  induction lines as [|l lines IH]; simpl.
  - split; auto.
  - destruct (isJsonLine l) eqn:E.
    + split; [intros H; inversion H; congruence | discriminate].
    + rewrite <- IH. split; [intros H; now inversion H | intros H; now constructor].
Qed.

(** [Split] returns at least one piece, and the pieces joined by the
    separator are the input. *)
Lemma Split_nonempty s sep : Split s sep <> [].
Proof.
  induction s as [|c s IH]; simpl; [discriminate|].
  destruct (Ascii.eqb c sep); [discriminate|].
  destruct (Split s sep); [contradiction | discriminate].
Qed.

Lemma Join_Split s sep : Join (Split s sep) sep = s.
Proof.
  induction s as [|c s IH]; [reflexivity|]. simpl.
  destruct (Ascii.eqb_spec c sep) as [->|Hne].
  - pose proof (Split_nonempty s sep).
    destruct (Split s sep) as [|p ps] eqn:E; [contradiction|].
    cbn [Join]. cbn [Join] in IH. rewrite IH. reflexivity.
  - pose proof (Split_nonempty s sep).
    destruct (Split s sep) as [|p ps] eqn:E; [contradiction|].
    destruct ps as [|q ps]; cbn [Join] in *.
    + now rewrite IH.
    + simpl. now rewrite IH.
Qed.

(** The test on every line of a given list, as a computation. *)
Lemma no_json_line_check lines :
  forallb (fun line => negb (isJsonLine line)) lines = true ->
  Forall (fun line => isJsonLine line = false) lines.
Proof.
  rewrite forallb_forall, Forall_forall. intros H line Hin.
  apply negb_true_iff, H, Hin.
Qed.

(** Without a line that passes the test, the input is returned whole. *)
Lemma getJsonString_fallback output :
  Forall (fun line => isJsonLine line = false) (Split output newline) ->
  getJsonString output = output.
Proof.
  intros H. unfold getJsonString. apply firstJsonLine_none in H.
  rewrite H. reflexivity.
Qed.

(** ** The extraction of the JSON line *)

(** C4, as the claim states it, fails: the program tests each line as it
    is, without trimming.  In [paddedOutput] the second of three lines is the
    document between two blanks on each side; the selection on trimmed
    content picks that line, while [getJsonString] finds no line and returns
    the whole output, which is neither the line nor its trimmed content. *)
Lemma getJsonString_does_not_trim :
  Split paddedOutput newline = ["starting daemon"; paddedLine; "done"]
  /\ Spec.selectJsonLine paddedOutput = Some paddedLine
  /\ getJsonString paddedOutput = paddedOutput
  /\ String.eqb (getJsonString paddedOutput) paddedLine = false
  /\ String.eqb (getJsonString paddedOutput) (Spec.TrimSpace paddedLine) = false.
Proof. repeat split. Qed.

(** C4, amended: [getJsonString] splits the output at the newlines and
    returns the first line that itself, untrimmed, begins with [{] and ends
    with [}], whatever the lines before and after it are; when no line passes
    the test as it is (a line with blanks around the braces does not), the
    whole output is returned. *)
Theorem getJsonString_first_untrimmed_line (input : string) :
  (forall pre line post,
      Split input newline = (pre ++ line :: post)%list ->
      Forall (fun l => isJsonLine l = false) pre ->
      isJsonLine line = true ->
      getJsonString input = line)
  /\ (Forall (fun l => isJsonLine l = false) (Split input newline) ->
      getJsonString input = input).
Proof.
  split.
  - intros pre line post Hsplit Hpre Hline. unfold getJsonString.
    rewrite Hsplit, (firstJsonLine_first pre line post Hpre Hline).
    reflexivity.
  - apply getJsonString_fallback.
Qed.

(** The second of three lines is selected; the padded line is not. *)
Lemma getJsonString_first_untrimmed_line_witness :
  getJsonString wrappedOutput = versionJson
  /\ getJsonString paddedOutput = paddedOutput.
Proof.
  split.
  - apply (proj1 (getJsonString_first_untrimmed_line wrappedOutput)
             ["starting daemon"] versionJson ["done"]).
    + reflexivity.
    + apply no_json_line_check. reflexivity.
    + reflexivity.
  - apply (proj2 (getJsonString_first_untrimmed_line paddedOutput)).
    apply no_json_line_check. reflexivity.
Defined.

(** ** The version test *)

(** Every mismatch gauge the handler sets carries the negation of
    [versionMatch] on the release tag and the version. *)
Lemma mismatch_gauge_value cfg now data local :
  Forall (fun s =>
            metric s = "tendermint_latest_version_mismatch" ->
            value s = BoolToFloat64
                        (negb (versionMatch (TagName (releaseInfo data))
                                            (Version (versionInfo data)))))
         (gauges cfg now data local).
Proof.
  unfold gauges. rewrite !Forall_app.
  repeat match goal with
    | |- context [String.eqb ?s ""] => destruct (String.eqb_spec s "")
    | |- context [match ?o with Some _ => _ | None => _ end] => destruct o
    end;
    cbn [negb andb];
    repeat split; repeat constructor; cbn [metric value]; try discriminate;
    intros _; reflexivity.
Qed.

(** C6: the two versions match exactly when one occurs in the other; the
    test is symmetric; [v1.2.0] matches [1.2.0] and [1.2.0] does not match
    [1.3.0]; the mismatch is the negation of the match, and it is the value
    of every mismatch gauge. *)
Theorem versionMatch_substring_symmetric (a b : string) :
  (versionMatch a b = true <-> Substring b a \/ Substring a b)
  /\ versionMatch a b = versionMatch b a
  /\ versionMatch "v1.2.0" "1.2.0" = true
  /\ versionMatch "1.2.0" "1.3.0" = false
  /\ versionMismatch a b = negb (versionMatch a b)
  /\ (forall cfg now data local,
        Forall (fun s =>
                  metric s = "tendermint_latest_version_mismatch" ->
                  value s = BoolToFloat64
                              (negb (versionMatch (TagName (releaseInfo data))
                                                  (Version (versionInfo data)))))
               (gauges cfg now data local)).
Proof.
  split; [|split; [|split; [|split; [|split]]]].
  - unfold versionMatch. rewrite orb_true_iff, !Contains_spec. reflexivity.
  - unfold versionMatch. apply orb_comm.
  - reflexivity.
  - reflexivity.
  - reflexivity.
  - apply mismatch_gauge_value.
Qed.

(** ** The fetchers *)

(** [GetNodeStatus] returns a status and no error, or an error and no
    status. *)
Lemma GetNodeStatus_cases net nodeUrl :
  (exists status, GetNodeStatus net nodeUrl = (Some status, None))
  \/ (exists e, GetNodeStatus net nodeUrl = (None, Some e)).
Proof.
  unfold GetNodeStatus.
  destruct (rpc_New net nodeUrl "/websocket") as [e|].
  - right. exists e. reflexivity.
  - destruct (rpc_Status net (mkClient nodeUrl "/websocket")) as [[st|] [e|]].
    + right. exists e. reflexivity.
    + left. exists st. reflexivity.
    + right. exists e. reflexivity.
    + right. eexists. reflexivity.
Qed.

(** C7: when the client is built and its status call completes with a nil
    status and a nil error, [GetNodeStatus] returns the error "empty status
    from node"; and whatever the transport answers, it returns a status
    without error or an error without status, never neither. *)
Theorem GetNodeStatus_empty_status_is_error (net : Rpc) (nodeUrl : string) :
  (rpc_New net nodeUrl "/websocket" = None ->
   rpc_Status net (mkClient nodeUrl "/websocket") = (None, None) ->
   GetNodeStatus net nodeUrl = (None, Some (Errorf "empty status from node")))
  /\ ((exists status, GetNodeStatus net nodeUrl = (Some status, None))
      \/ (exists e, GetNodeStatus net nodeUrl = (None, Some e))).
Proof.
  split.
  - intros Hnew Hstatus. unfold GetNodeStatus. rewrite Hnew, Hstatus. reflexivity.
  - apply GetNodeStatus_cases.
Qed.

(** On a transport that completes with neither status nor error. *)
Lemma GetNodeStatus_empty_status_is_error_witness :
  GetNodeStatus rpcEmpty "http://localhost:26657"
  = (None, Some (Errorf "empty status from node")).
Proof.
  apply (proj1 (GetNodeStatus_empty_status_is_error rpcEmpty _)); reflexivity.
Defined.

(** The earlier revisions pass on what the client returns: on the same
    transport they return neither a status nor an error. *)
Remark Part001_GetNodeStatus_passes_empty_status :
  Part001.GetNodeStatus rpcEmpty "http://localhost:26657" = (None, None).
Proof. reflexivity. Qed.

(** The sample decoder rejects what it does not hold valid. *)
Lemma sampleJson_rejects_invalid : json_rejects_invalid sampleJson.
Proof.
  intros data v Hinvalid. cbn in *. rewrite Hinvalid. eexists. reflexivity.
Qed.

(** C5: when the binary runs and no line of its output begins with [{] and
    ends with [}], the text handed to the decoder is the whole output; when
    that output is not valid JSON, [GetBinaryVersion] returns the decoder's
    error (with the zero [VersionInfo]), not a success. *)
Theorem GetBinaryVersion_undecodable_output
    (cfg : Config) (env : Env) (out : string) :
  json_rejects_invalid (json env) ->
  exec_CombinedOutput env (BinaryPath cfg) (Split (BinaryArgs cfg) space)
  = (out, None) ->
  Forall (fun line => isJsonLine line = false) (Split out newline) ->
  json_Valid (json env) out = false ->
  getJsonString out = out
  /\ exists e,
       json_Unmarshal (json env) out zeroVersionInfo = (zeroVersionInfo, Some e)
       /\ GetBinaryVersion cfg env = (zeroVersionInfo, Some e).
Proof.
  intros Hjson Hexec Hlines Hinvalid.
  pose proof (getJsonString_fallback out Hlines) as Hwhole.
  split; [exact Hwhole|].
  destruct (Hjson out zeroVersionInfo Hinvalid) as [e He].
  exists e. split; [exact He|].
  unfold GetBinaryVersion. rewrite Hexec, Hwhole, He. reflexivity.
Qed.

(** Two lines of log from the binary, with the sample decoder. *)
Lemma GetBinaryVersion_undecodable_output_witness :
  getJsonString brokenOutput = brokenOutput
  /\ exists e,
       json_Unmarshal sampleJson brokenOutput zeroVersionInfo
       = (zeroVersionInfo, Some e)
       /\ GetBinaryVersion fullConfig
            (sampleEnv (rpcUp sampleStatus) (rpcUp remoteSample) brokenOutput)
          = (zeroVersionInfo, Some e).
Proof.
  apply (GetBinaryVersion_undecodable_output fullConfig
           (sampleEnv (rpcUp sampleStatus) (rpcUp remoteSample) brokenOutput)
           brokenOutput).
  - exact sampleJson_rejects_invalid.
  - reflexivity.
  - apply no_json_line_check. reflexivity.
  - reflexivity.
Defined.

(** ** The aggregator *)

(** The frame at the join: each variable holds what its fetcher returned, or
    its zero value when the fetcher was not launched. *)
Lemma joined_frame cfg env :
  joined cfg env =
  mkFrame (fst (localStatusFetch cfg env))
          (ifLaunched (remoteLaunched cfg) (fst (remoteStatusFetch cfg env)) None)
          (ifLaunched (releaseLaunched cfg) (fst (releaseFetch cfg env))
                      zeroReleaseInfo)
          (ifLaunched (versionLaunched cfg) (fst (versionProbe cfg env))
                      zeroVersionInfo)
          (snd (localStatusFetch cfg env))
          (ifLaunched (remoteLaunched cfg) (snd (remoteStatusFetch cfg env)) None)
          (ifLaunched (releaseLaunched cfg) (snd (releaseFetch cfg env)) None)
          (ifLaunched (versionLaunched cfg) (snd (versionProbe cfg env)) None)
          (launchedCalls cfg).
Proof.
  unfold joined, run, goroutines, launchedCalls. cbn [fold_left].
  unfold go_versionInfo, go_releaseInfo, go_remoteStatus, go_localStatus,
    remoteLaunched, releaseLaunched, versionLaunched, ifLaunched,
    localStatusFetch, remoteStatusFetch, releaseFetch, versionProbe, frame0.
  destruct (GetNodeStatus (localNet env) (LocalTendermintRpc cfg)) as [ls le].
  destruct (String.eqb (RemoteTendermintRpc cfg) "");
    [|destruct (GetNodeStatus (remoteNet env) (RemoteTendermintRpc cfg))
        as [rs re]];
    (destruct (String.eqb (GithubOrg cfg) "" || String.eqb (GithubRepo cfg) "");
     [|frame_fields;
       destruct (GetGithubRelease cfg (github env) (json env)
                   (latestReleaseUrl cfg) zeroReleaseInfo) as [gi ge]]);
    (destruct (String.eqb (BinaryPath cfg) "");
     [|destruct (GetBinaryVersion cfg env) as [vi ve]]);
    reflexivity.
Qed.

(** The four tests after the join return the first non-nil error. *)
Lemma resolve_firstError f :
  resolve f =
  match firstError [v_localStatusError f; v_remoteStatusError f;
                    v_releaseInfoError f; v_versionInfoError f] with
  | Some e => Data_err e
  | None => mkData (v_releaseInfo f) (v_versionInfo f)
                   (v_localStatus f) (v_remoteStatus f) None
  end.
Proof.
  unfold resolve. simpl.
  destruct (v_localStatusError f), (v_remoteStatusError f),
    (v_releaseInfoError f), (v_versionInfoError f); reflexivity.
Qed.

(** The error variables and the local status at the join. *)
Lemma joined_errors cfg env :
  [v_localStatusError (joined cfg env); v_remoteStatusError (joined cfg env);
   v_releaseInfoError (joined cfg env); v_versionInfoError (joined cfg env)]
  = subFetchErrors cfg env.
Proof. rewrite joined_frame. reflexivity. Qed.

Lemma joined_localStatus cfg env :
  v_localStatus (joined cfg env) = fst (localStatusFetch cfg env).
Proof. rewrite joined_frame. reflexivity. Qed.

(** The two outcomes of a scrape: the first error of the sub-fetches alone,
    or no error and a local status. *)
Lemma GetAllData_cases cfg env :
  match firstError (subFetchErrors cfg env) with
  | Some e => GetAllData cfg env = Data_err e
  | None =>
      err (GetAllData cfg env) = None
      /\ exists local, localStatus (GetAllData cfg env) = Some local
  end.
Proof.
  unfold GetAllData. rewrite resolve_firstError, joined_errors.
  destruct (firstError (subFetchErrors cfg env)) as [e|] eqn:Hfirst;
    [reflexivity|].
  split; [reflexivity|]. cbn [localStatus]. rewrite joined_localStatus.
  unfold subFetchErrors in Hfirst. cbn [firstError] in Hfirst.
  unfold localStatusFetch in *.
  destruct (GetNodeStatus_cases (localNet env) (LocalTendermintRpc cfg))
    as [[st Hst]|[e He]]; rewrite ?Hst, ?He in *.
  - exists st. reflexivity.
  - discriminate.
Qed.

(** C1: the error of the value [GetAllData] returns is the first non-nil
    error among those of the local status, the remote status, the release
    and the version probe, in that order, and the value is then [Data{err:
    e}] with nothing else; in particular an error of the local status fetch
    is returned whatever the other fetchers did.  The last holds in the
    earlier revision [Part001] too. *)
Theorem GetAllData_error_priority (cfg : Config) (env : Env) :
  err (GetAllData cfg env) = firstError (subFetchErrors cfg env)
  /\ match firstError (subFetchErrors cfg env) with
     | Some e => GetAllData cfg env = Data_err e
     | None => True
     end
  /\ match snd (localStatusFetch cfg env) with
     | Some e => GetAllData cfg env = Data_err e
     | None => True
     end
  /\ match snd (Part001.GetNodeStatus (localNet env)
                                      (LocalTendermintRpc cfg)) with
     | Some e => Part001.GetAllData cfg env = Data_err e
     | None => True
     end.
Proof.
  unfold GetAllData. rewrite resolve_firstError, joined_errors.
  repeat split.
  - destruct (firstError (subFetchErrors cfg env)); reflexivity.
  - destruct (firstError (subFetchErrors cfg env)); [reflexivity | exact I].
  - unfold subFetchErrors. cbn [firstError].
    destruct (snd (localStatusFetch cfg env)); [reflexivity | exact I].
  - unfold Part001.GetAllData, Part001.joined, Part001.go_localStatus.
    destruct (Part001.GetNodeStatus (localNet env) (LocalTendermintRpc cfg))
      as [ls [e|]]; [|exact I].
    cbn [snd]. unfold Part001.go_remoteStatus.
    destruct (Part001.GetNodeStatus (remoteNet env) (RemoteTendermintRpc cfg)).
    unfold Part001.go_releaseInfo. frame_fields.
    destruct (Part001.GetJson _ _ _ _).
    unfold Part001.go_versionInfo.
    destruct (Part001.GetNodeVersion cfg env).
    reflexivity.
Qed.

(** In [main.go] an error of a launched remote status fetch, after a local
    status without error, is the error returned. *)
Lemma GetAllData_remote_error (cfg : Config) (env : Env) (e : GoError) :
  RemoteTendermintRpc cfg <> "" ->
  snd (localStatusFetch cfg env) = None ->
  snd (remoteStatusFetch cfg env) = Some e ->
  GetAllData cfg env = Data_err e.
Proof.
  intros Hlaunched Hlocal Hremote.
  pose proof (GetAllData_cases cfg env) as H.
  unfold subFetchErrors, remoteLaunched in H.
  apply String.eqb_neq in Hlaunched.
  rewrite Hlocal, Hremote, Hlaunched in H. exact H.
Qed.

(** The local node answers and the remote node refuses the connection. *)
Lemma GetAllData_remote_error_witness :
  GetAllData fullConfig (sampleEnv (rpcUp sampleStatus) rpcDown versionJson)
  = Data_err connectionRefused.
Proof.
  apply GetAllData_remote_error; [discriminate | reflexivity | reflexivity].
Defined.

(** The earlier revision never reads [remoteStatusError]: its second test
    repeats the first, so the value returned depends on the errors of the
    local status, the release and the version only. *)
Lemma Part001_resolve_skips_remote_error (f : Frame) :
  Part001.resolve f =
  match firstError [v_localStatusError f; v_releaseInfoError f;
                    v_versionInfoError f] with
  | Some e => Data_err e
  | None => mkData (v_releaseInfo f) (v_versionInfo f)
                   (v_localStatus f) (v_remoteStatus f) None
  end.
Proof.
  unfold Part001.resolve. cbn [firstError].
  destruct (v_localStatusError f), (v_releaseInfoError f),
    (v_versionInfoError f); reflexivity.
Qed.

(** C2 in the earlier revision [Part001]: the local node answers, the remote
    node refuses the connection, the release and the version are fetched.
    [Part001.GetAllData] returns a value without error and with a nil remote
    status, on which the handler of that revision panics; [GetAllData] of
    [main.go] returns the remote error in the same world. *)
Lemma Part001_GetAllData_loses_remote_error :
  let env := sampleEnv (rpcUp sampleStatus) rpcDown versionJson in
  Part001.GetNodeStatus (localNet env) (LocalTendermintRpc fullConfig)
  = (Some sampleStatus, None)
  /\ Part001.GetNodeStatus (remoteNet env) (RemoteTendermintRpc fullConfig)
     = (None, Some connectionRefused)
  /\ Part001.GetAllData fullConfig env
     = mkData (mkReleaseInfo "v2.0.0" "v2.0.0") (mkVersionInfo "x" "1.0.0")
              (Some sampleStatus) None None
  /\ Part001.Handler fullConfig env = None
  /\ GetAllData fullConfig env = Data_err connectionRefused.
Proof. cbv zeta. repeat split. Qed.

(** C3: with no remote address, no organization, no repository and no
    binary path, the only fetcher called is [GetNodeStatus] on the local
    address; the three other error variables stay nil and the three other
    result variables keep their zero value; and the value returned is the
    error of the local fetch or, without one, the local status with every
    other field zero. *)
Theorem GetAllData_only_local_when_unconfigured (cfg : Config) (env : Env) :
  RemoteTendermintRpc cfg = "" ->
  GithubOrg cfg = "" -> GithubRepo cfg = "" ->
  BinaryPath cfg = "" ->
  GetAllData_invoked cfg env = [CallGetNodeStatus (LocalTendermintRpc cfg)]
  /\ v_remoteStatusError (joined cfg env) = None
  /\ v_releaseInfoError (joined cfg env) = None
  /\ v_versionInfoError (joined cfg env) = None
  /\ v_remoteStatus (joined cfg env) = None
  /\ v_releaseInfo (joined cfg env) = zeroReleaseInfo
  /\ v_versionInfo (joined cfg env) = zeroVersionInfo
  /\ GetAllData cfg env =
     match localStatusFetch cfg env with
     | (_, Some e) => Data_err e
     | (status, None) =>
         mkData zeroReleaseInfo zeroVersionInfo status None None
     end.
Proof.
  intros Hremote Horg Hrepo Hpath.
  unfold GetAllData_invoked, GetAllData. rewrite joined_frame.
  unfold launchedCalls, remoteLaunched, releaseLaunched, versionLaunched.
  rewrite Hremote, Horg, Hrepo, Hpath. cbn [String.eqb negb orb ifLaunched].
  frame_fields. repeat split.
  unfold resolve. frame_fields.
  destruct (localStatusFetch cfg env) as [status [e|]]; reflexivity.
Qed.

(** The default flags: only the local address is set. *)
Lemma GetAllData_only_local_when_unconfigured_witness :
  GetAllData_invoked bareConfig (sampleEnv (rpcUp sampleStatus) rpcDown "")
  = [CallGetNodeStatus "http://localhost:26657"]
  /\ GetAllData bareConfig (sampleEnv (rpcUp sampleStatus) rpcDown "")
     = mkData zeroReleaseInfo zeroVersionInfo (Some sampleStatus) None None.
Proof.
  pose proof (GetAllData_only_local_when_unconfigured bareConfig
                (sampleEnv (rpcUp sampleStatus) rpcDown "")
                eq_refl eq_refl eq_refl eq_refl)
    as (Hcalls & _ & _ & _ & _ & _ & _ & Hdata).
  split; [exact Hcalls | exact Hdata].
Defined.

(** *** The order of completion *)




Section Schedules.

Variable cfg : Config.
Variable env : Env.






End Schedules.


(** ** The handler *)

(** C8: the value [GetAllData] returns either carries an error and nothing
    else, and the handler then answers with a text body and sets no gauge
    from it; or it carries no error, its local status is not nil, and the
    handler answers with the gauges read from that status, without a nil
    dereference. *)
Theorem GetAllData_snapshot_invariant (cfg : Config) (env : Env) (now : Z) :
  match err (GetAllData cfg env) with
  | Some e =>
      GetAllData cfg env = Data_err e
      /\ exists text,
           respond cfg now (GetAllData cfg env)
           = Some (mkResponse 500 (PlainText text))
  | None =>
      exists local,
        localStatus (GetAllData cfg env) = Some local
        /\ respond cfg now (GetAllData cfg env)
           = Some (mkResponse 200
                     (Exposition (gauges cfg now (GetAllData cfg env) local)))
  end.
Proof.
  unfold respond. pose proof (GetAllData_cases cfg env) as H.
  destruct (firstError (subFetchErrors cfg env)) as [e|].
  - rewrite H. cbn [err Data_err]. split; [reflexivity|]. eexists. reflexivity.
  - destruct H as [-> [local Hlocal]]. exists local. rewrite Hlocal.
    split; reflexivity.
Qed.

(** C9: when the scrape resolves to an error, the handler answers 500 with
    the text "Error fetching data: " followed by the message of the error,
    and no gauge; otherwise it answers 200 with the exposition of the gauges.
    With a local node that refuses the connection the body is "Error
    fetching data: connection refused". *)
Theorem Handler_status_and_body (cfg : Config) (env : Env) (now : Z) :
  match err (GetAllData cfg env) with
  | Some e =>
      Handler cfg env now
      = Some (mkResponse 500 (PlainText ("Error fetching data: " ++ Error e)))
  | None =>
      exists samples,
        Handler cfg env now = Some (mkResponse 200 (Exposition samples))
  end
  /\ Handler fullConfig (sampleEnv rpcDown (rpcUp remoteSample) versionJson) now
     = Some (mkResponse 500
               (PlainText "Error fetching data: connection refused")).
Proof.
  split; [|reflexivity].
  unfold Handler, respond. pose proof (GetAllData_cases cfg env) as H.
  destruct (firstError (subFetchErrors cfg env)) as [e|].
  - rewrite H. reflexivity.
  - destruct H as [-> [local ->]]. eexists. reflexivity.
Qed.

(** The first revision answers an error of a fetcher by returning: nothing
    is written, and the server sends 200 with an empty body. *)
Remark Initial_Handler_error_writes_nothing :
  Initial.Handler fullConfig (sampleEnv rpcDown (rpcUp remoteSample) versionJson)
  = Some (mkResponse 200 (PlainText "")).
Proof. reflexivity. Qed.

(** C10: for a value without error, the handler sets the app-version gauge
    exactly when the version string is not empty, the latest-version gauge
    exactly when the tag is not empty, the mismatch gauge exactly when
    neither is empty, and the remote-block gauge exactly when the remote
    status is not nil; a decoded version (or release) whose string is empty
    gets the same answer as the zero value of a fetch that never ran. *)
Theorem gauges_presence_by_emptiness
    (cfg : Config) (now : Z) (release : ReleaseInfo) (version : VersionInfo)
    (local : ResultStatus) (remote : option ResultStatus) :
  exists samples,
    respond cfg now (mkData release version (Some local) remote None)
    = Some (mkResponse 200 (Exposition samples))
    /\ (In "tendermint_node_app_version" (map metric samples)
        <-> Version version <> "")
    /\ (In "tendermint_github_latest_version" (map metric samples)
        <-> TagName release <> "")
    /\ (In "tendermint_latest_version_mismatch" (map metric samples)
        <-> Version version <> "" /\ TagName release <> "")
    /\ (In "tendermint_remote_node_latest_block" (map metric samples)
        <-> remote <> None)
    /\ (forall name,
          respond cfg now
            (mkData release (mkVersionInfo name "") (Some local) remote None)
          = respond cfg now
              (mkData release zeroVersionInfo (Some local) remote None))
    /\ (forall name,
          respond cfg now
            (mkData (mkReleaseInfo name "") version (Some local) remote None)
          = respond cfg now
              (mkData zeroReleaseInfo version (Some local) remote None)).
Proof.
  eexists. split; [reflexivity|].
  unfold gauges. cbn [versionInfo releaseInfo remoteStatus]. rewrite !map_app.
  split; [|split; [|split; [|split; [|split]]]].
  1-4: metric_names.
  - intros name. reflexivity.
  - intros name. reflexivity.
Qed.
